(** * BaseCreateWidget (studiolibrarymaya/basecreatewidget.py)

    A shallow embedding of the create-widget controller and the proofs of
    its save flow, its script-job discipline and its thumbnail geometry.

    The widget is a Python object living inside a Maya session.  Its
    methods are embedded as computations in a small monad that threads the
    widget and host state, may raise a Python exception, and logs every
    call that leaves the class (dialogs, the item collaborator, script
    jobs, Qt's own [close]). *)

From Stdlib Require Import ZArith Ascii String.
From stdpp Require Import base strings gmap list pretty.

Open Scope Z_scope.

(** ** Python values *)

Module Py.

(** A text (a [str]; a [unicode] under Python 2, which is what Qt hands
    out there) is the list of its code points. *)
Abbreviation unicode := (list N).

(** The text of a literal of the source, all of which are ASCII. *)
Fixpoint u (s : string) : unicode :=
  match s with
  | EmptyString => []
  | String c r => N_of_ascii c :: u r
  end.

(** [str.isspace] of one character, as CPython 3 has it: the code points
    of bidirectional type WS, B or S or of category Zs.  These are the
    characters [str.strip()] removes. *)
Definition isspace (c : N) : bool :=
  ((0x09 <=? c) && (c <=? 0x0D)        (* tab, LF, VT, FF, CR *)
   || (0x1C <=? c) && (c <=? 0x1F)     (* file, group, record, unit separator *)
   || (c =? 0x20)                      (* space *)
   || (c =? 0x85)                      (* next line *)
   || (c =? 0xA0)                      (* no-break space *)
   || (c =? 0x1680)                    (* ogham space mark *)
   || (0x2000 <=? c) && (c <=? 0x200A) (* en quad ... hair space *)
   || (c =? 0x2028) || (c =? 0x2029)   (* line, paragraph separator *)
   || (c =? 0x202F)                    (* narrow no-break space *)
   || (c =? 0x205F)                    (* medium mathematical space *)
   || (c =? 0x3000))%N.                (* ideographic space *)

Fixpoint lstrip (s : unicode) : unicode :=
  match s with
  | [] => []
  | c :: r => if isspace c then lstrip r else s
  end.

Fixpoint rstrip (s : unicode) : unicode :=
  match s with
  | [] => []
  | c :: r =>
      match rstrip r with
      | [] => if isspace c then [] else [c]
      | r' => c :: r'
      end
  end.

(** [s.strip()] *)
Definition strip (s : unicode) : unicode := rstrip (lstrip s).

Fixpoint whitespace_only (s : unicode) : bool :=
  match s with
  | [] => true
  | c :: r => isspace c && whitespace_only r
  end.

(** The last character of a text, if any. *)
Fixpoint last_char (t : unicode) : option N :=
  match t with
  | [] => None
  | [c] => Some c
  | _ :: r => last_char r
  end.

(** Truth value of a [str] and of a [list]: empty is false. *)
Definition bool_str (s : unicode) : bool :=
  match s with [] => false | _ => true end.

Definition bool_list {A} (l : list A) : bool :=
  match l with [] => false | _ => true end.

(** [x or []] where [x] is [None] or a list. *)
Definition or_empty {A} (x : option (list A)) : list A :=
  match x with
  | Some (x :: l) => x :: l
  | _ => []
  end.

(** The exception classes that matter to an [except Exception] clause:
    [KeyboardInterrupt], [SystemExit] and [GeneratorExit] derive from
    [BaseException] only. *)
Inductive exc_class :=
| Exception | NameError | AttributeError | RuntimeError | IOError
| KeyboardInterrupt | SystemExit | GeneratorExit.

Definition issubclass_Exception (c : exc_class) : bool :=
  match c with
  | KeyboardInterrupt | SystemExit | GeneratorExit => false
  | _ => true
  end.

Definition issubclass_NameError (c : exc_class) : bool :=
  match c with NameError => true | _ => false end.

Record exn := mk_exn { exn_class : exc_class; exn_message : unicode }.

(** [str(e)] *)
Definition str (e : exn) : unicode := exn_message e.

End Py.

Import Py.

(** ** Qt values *)

Module Qt.

Record QSize := mk_QSize { qs_width : Z; qs_height : Z }.

(** [QSize.isValid()]: neither side is negative. *)
Definition isValid (size : QSize) : bool :=
  (0 <=? qs_width size) && (0 <=? qs_height size).

Definition QWIDGETSIZE_MAX : Z := 16777215.

(** The size a widget has as its maximum size after
    [QWidget.setMaximumSize(size)]: Qt lowers a side above
    [QWIDGETSIZE_MAX] to it and raises a negative side to 0 (it warns and
    goes on). *)
Definition accepted_maximumSize (size : QSize) : QSize :=
  mk_QSize (Z.max (Z.min (qs_width size) QWIDGETSIZE_MAX) 0)
           (Z.max (Z.min (qs_height size) QWIDGETSIZE_MAX) 0).

(** What [QAbstractButton.iconSize()] answers when [stored] is the size
    last given to [setIconSize]: that size if it is valid, else the
    square of the style's [PM_ButtonIconSize]. *)
Definition reported_iconSize (metric : Z) (stored : QSize) : QSize :=
  if isValid stored then stored else mk_QSize metric metric.

(** [QMessageBox.StandardButton] flags. *)
Definition Yes : Z := 0x4000.
Definition Ignore : Z := 0x100000.
Definition Cancel : Z := 0x400000.

Inductive Menu :=
| ThumbnailCaptureMenu (iconPath : unicode) (force : bool) (parent : option nat)
| QMenu.

End Qt.

Import Py Qt.

(** ** The item collaborator *)

(** Modelled from the spec: [studiolibrarymaya.BaseItem] is not in this
    file; the item is owned externally and injected at construction, and
    the widget only calls its contract, [options()], [saveOptions()],
    [saveValidator], [save(objects, path, iconPath, metadata)],
    [setLibraryWindow()] and [libraryWindow()].  The record holds what the
    widget can observe of it: the values of the getters and, for [save],
    whether the call returns ([None]) or which exception it raises.  A
    library window is an opaque reference. *)
Record Item := mk_Item {
  options : list unicode;
  saveOptions : list unicode;
  saveValidator : nat;
  item_libraryWindow : option nat;
  item_save : list unicode → unicode → unicode → gmap unicode unicode → option exn
}.

(** ** Widget state *)

Record OptionsWidget := mk_OptionsWidget {
  ow_options : list unicode;
  ow_validator : nat
}.

Record ThumbnailButton := mk_ThumbnailButton {
  toolTip : unicode;
  icon : option unicode;         (* the pixmap path of the [QIcon] *)
  iconSize : QSize;             (* the size last given to [setIconSize] *)
  maximumSize : QSize;          (* what [maximumSize()] answers *)
  text : unicode;
  menu : option Menu
}.

Record OptionsFrame := mk_OptionsFrame {
  of_visible : bool;
  of_widgets : list OptionsWidget
}.

(** The widgets created by [studioqt.loadUi] from the design file.
    [thumbnailButton], [thumbnailFrame], [name], [comment] and
    [folderEdit] are dereferenced unconditionally ([thumbnailButton] already
    by [__init__]), so every constructed widget has them and
    [hasattr(self.ui, "thumbnailButton")] holds; [contains] and
    [optionsFrame] are only ever reached behind [hasattr] and may be
    absent. *)
Record Ui := mk_Ui {
  ui_name : unicode;                       (* ui.name.text() *)
  ui_comment : unicode;                    (* ui.comment.toPlainText() *)
  ui_folderEdit : unicode;                 (* ui.folderEdit.text() *)
  ui_thumbnailButton : ThumbnailButton;
  ui_thumbnailFrame : QSize;              (* its maximum size *)
  ui_contains : option unicode;            (* its text, when the label exists *)
  ui_optionsFrame : option OptionsFrame
}.

(** The private fields.  [_focusWidget] and [_libraryWindow] are assigned
    [None] in [__init__] and never read or written again; they are left
    out.  [_item] is [None] only between lines 54 and 79 of [__init__],
    where nothing reads it.  A script job is identified by the number the
    host gave it. *)
Record Widget := mk_Widget {
  _item : Item;
  _iconPath : unicode;
  _scriptJob : option nat;
  _optionsWidget : option OptionsWidget;
  ui : Ui
}.

(** ** Host state

    What Maya, Qt, the file system and the user decide.  The widget runs
    inside a Maya session: [maya.cmds] and [mutils] are bound, so the
    selection query returns ([None] or a list). *)
Record Host := mk_Host {
  ls_selection : option (list unicode);    (* maya.cmds.ls(selection=True) *)
  path_exists : unicode → bool;            (* os.path.exists *)
  question_answer : Z;                    (* button pressed in MessageBox.question *)
  capture_result : option unicode;         (* path handed to [captured], if called back *)
  tempThumbnailPath : unicode;             (* mutils.gui.tempThumbnailPath() *)
  existing_directory : unicode;            (* QFileDialog.getExistingDirectory(...) *)
  width : Z;                              (* self.width() *)
  parent : option nat;                    (* self.parent() *)
  PM_ButtonIconSize : Z;                  (* the style's default icon size of a button *)
  scriptJobs : gset nat;                  (* live script jobs of this widget *)
  next_scriptJob : nat
}.

Record State := mk_State { widget : Widget; host : Host }.

(** Calls that leave the class. *)
Inductive Event :=
| EvItemSave (objects : list unicode) (path iconPath : unicode)
             (metadata : gmap unicode unicode)
| EvQuestion (parent : option nat) (title text : unicode) (buttons : Z)
| EvCritical (parent : option nat) (title text : unicode)
| EvScriptJob (id : nat) (event : unicode)
| EvKill (id : nat)
| EvQWidgetClose
| EvThumbnailCapture (path : unicode)
| EvCaptured (path : unicode)
| EvValidate
| EvSetsMenu (path : unicode) (libraryWindow : option nat)
| EvSaveSettings
| EvLog (msg : unicode).

(** ** The monad: state, exceptions and the log of outside calls *)

Inductive Result (A : Type) :=
| Return (a : A)
| Raise (e : exn).
Arguments Return {A} a.
Arguments Raise {A} e.

Definition M (A : Type) : Type := State → Result A * State * list Event.

Definition ret {A} (a : A) : M A := λ s, (Return a, s, []).

Definition bind {A B} (m : M A) (k : A → M B) : M B :=
  λ s, match m s with
       | (Return a, s1, l1) =>
           match k a s1 with (r, s2, l2) => (r, s2, l1 ++ l2) end
       | (Raise e, s1, l1) => (Raise e, s1, l1)
       end.

Definition raise {A} (e : exn) : M A := λ s, (Raise e, s, []).

Definition gets {A} (f : State → A) : M A := λ s, (Return (f s), s, []).

Definition modify (f : State → State) : M unit := λ s, (Return tt, f s, []).

Definition emit (e : Event) : M unit := λ s, (Return tt, s, [e]).

(** [try: body except C as e: handler e] where [catches] tells whether an
    exception is an instance of [C]. *)
Definition try_except {A} (body : M A) (catches : exn → bool)
    (handler : exn → M A) : M A :=
  λ s, match body s with
       | (Raise e, s1, l1) =>
           if catches e
           then match handler e s1 with (r, s2, l2) => (r, s2, l1 ++ l2) end
           else (Raise e, s1, l1)
       | r => r
       end.

Declare Scope py_scope.
Delimit Scope py_scope with py.
Notation "x <- m ;; k" := (bind m (λ x, k))
  (at level 100, m at next level, k at level 200, right associativity) : py_scope.
Notation "m ;; k" := (bind m (λ _, k))
  (at level 100, k at level 200, right associativity) : py_scope.
Open Scope py_scope.

Definition when (b : bool) (m : M unit) : M unit := if b then m else ret tt.

Definition result {A} (x : Result A * State * list Event) : Result A := x.1.1.
Definition state_after {A} (x : Result A * State * list Event) : State := x.1.2.
Definition events {A} (x : Result A * State * list Event) : list Event := x.2.

(** ** Field updates *)

Definition with_widget (f : Widget → Widget) (s : State) : State :=
  mk_State (f (widget s)) (host s).

Definition with_host (f : Host → Host) (s : State) : State :=
  mk_State (widget s) (f (host s)).

Definition set_item (it : Item) (w : Widget) : Widget :=
  mk_Widget it (_iconPath w) (_scriptJob w) (_optionsWidget w) (ui w).

Definition set_iconPath (p : unicode) (w : Widget) : Widget :=
  mk_Widget (_item w) p (_scriptJob w) (_optionsWidget w) (ui w).

Definition set_scriptJob (j : option nat) (w : Widget) : Widget :=
  mk_Widget (_item w) (_iconPath w) j (_optionsWidget w) (ui w).

Definition set_optionsWidget (o : option OptionsWidget) (w : Widget) : Widget :=
  mk_Widget (_item w) (_iconPath w) (_scriptJob w) o (ui w).

Definition with_ui (f : Ui → Ui) (w : Widget) : Widget :=
  mk_Widget (_item w) (_iconPath w) (_scriptJob w) (_optionsWidget w) (f (ui w)).

Definition with_thumbnailButton (f : ThumbnailButton → ThumbnailButton) (u : Ui) : Ui :=
  mk_Ui (ui_name u) (ui_comment u) (ui_folderEdit u) (f (ui_thumbnailButton u))
        (ui_thumbnailFrame u) (ui_contains u) (ui_optionsFrame u).

Definition set_thumbnailFrame (sz : QSize) (u : Ui) : Ui :=
  mk_Ui (ui_name u) (ui_comment u) (ui_folderEdit u) (ui_thumbnailButton u)
        sz (ui_contains u) (ui_optionsFrame u).

Definition set_folderEdit (p : unicode) (u : Ui) : Ui :=
  mk_Ui (ui_name u) (ui_comment u) p (ui_thumbnailButton u)
        (ui_thumbnailFrame u) (ui_contains u) (ui_optionsFrame u).

Definition set_contains (t : option unicode) (u : Ui) : Ui :=
  mk_Ui (ui_name u) (ui_comment u) (ui_folderEdit u) (ui_thumbnailButton u)
        (ui_thumbnailFrame u) t (ui_optionsFrame u).

Definition set_optionsFrame (f : option OptionsFrame) (u : Ui) : Ui :=
  mk_Ui (ui_name u) (ui_comment u) (ui_folderEdit u) (ui_thumbnailButton u)
        (ui_thumbnailFrame u) (ui_contains u) f.

Definition set_libraryWindow (lw : option nat) (it : Item) : Item :=
  mk_Item (options it) (saveOptions it) (saveValidator it) lw (item_save it).

Definition set_scriptJobs (js : gset nat) (next : nat) (h : Host) : Host :=
  mk_Host (ls_selection h) (path_exists h) (question_answer h) (capture_result h)
          (tempThumbnailPath h) (existing_directory h) (width h) (parent h)
          (PM_ButtonIconSize h) js next.

(** ** Calls that leave the class

    [maya.cmds], [os.path] and Qt belong to the host; [mutils],
    [studiolibrary.widgets] and the item are defined elsewhere in the
    repository.  Each definition is the call the source makes, with its
    effect on the host state and its entry in the log. *)

Module HostCalls.

(** [maya.cmds.ls(selection=True)] *)
Definition maya_cmds_ls : M (option (list unicode)) :=
  gets (λ s, ls_selection (host s)).

(** [os.path.exists(path)] *)
Definition os_path_exists (path : unicode) : M bool :=
  gets (λ s, path_exists (host s) path).

(** Modelled from the spec: [mutils.ScriptJob] is not in this file.  A
    script job is a host-application event subscription that invokes a
    callback when the user's selection changes: constructing one
    registers it with the host, which numbers it.  The object is an
    ordinary instance, hence true in a condition. *)
Definition mutils_ScriptJob (event : unicode) : M nat :=
  j <- gets (λ s, next_scriptJob (host s)) ;;
  modify (with_host (λ h, set_scriptJobs ({[j]} ∪ scriptJobs h) (S j) h)) ;;
  emit (EvScriptJob j event) ;;
  ret j.

(** Modelled from the spec: [mutils.ScriptJob.kill] is not in this file.
    It cancels the subscription. *)
Definition ScriptJob_kill (j : nat) : M unit :=
  modify (with_host (λ h, set_scriptJobs (scriptJobs h ∖ {[j]}) (next_scriptJob h) h)) ;;
  emit (EvKill j).

(** [QtWidgets.QWidget.close(self)] *)
Definition QWidget_close : M unit := emit EvQWidgetClose.

(** Modelled from the spec: [studiolibrary.widgets.MessageBox.question]
    is not in this file.  It prompts the user with a modal dialog and
    returns the button that was pressed. *)
Definition MessageBox_question (parent : option nat) (title text : unicode)
    (buttons : Z) : M Z :=
  emit (EvQuestion parent title text buttons) ;;
  gets (λ s, question_answer (host s)).

(** Modelled from the spec: [studiolibrary.widgets.MessageBox.critical]
    is not in this file.  It shows a modal error dialog with the text. *)
Definition MessageBox_critical (parent : option nat) (title text : unicode) : M unit :=
  emit (EvCritical parent title text).

(** Modelled from the spec: [mutils.gui.thumbnailCapture] is not in this
    file.  It is a thumbnail-capture utility producing an image file
    path; when it finishes within the call it hands that path to
    [captured], otherwise [captured] is called later, as a call of its
    own. *)
Definition mutils_gui_thumbnailCapture (path : unicode)
    (captured : unicode → M unit) : M unit :=
  emit (EvThumbnailCapture path) ;;
  r <- gets (λ s, capture_result (host s)) ;;
  match r with
  | Some p => emit (EvCaptured p) ;; captured p
  | None => ret tt
  end.

(** [item.save(objects, path=path, iconPath=iconPath, metadata=metadata)]:
    the call is logged with its arguments, then returns or raises as the
    item decides.  The item writes to disk; it does not reach back into
    the widget. *)
Definition Item_save (it : Item) (objects : list unicode) (path iconPath : unicode)
    (metadata : gmap unicode unicode) : M unit :=
  emit (EvItemSave objects path iconPath metadata) ;;
  match item_save it objects path iconPath metadata with
  | Some e => raise e
  | None => ret tt
  end.

End HostCalls.

Import HostCalls.

(** ** The methods of [BaseCreateWidget] *)

Definition isinstance_Exception (e : exn) : bool := issubclass_Exception (exn_class e).
Definition isinstance_NameError (e : exn) : bool := issubclass_NameError (exn_class e).

Definition item : M Item := gets (λ s, _item (widget s)).

Definition setLibraryWindow (libraryWindow : option nat) : M unit :=
  it <- item ;;
  modify (with_widget (set_item (set_libraryWindow libraryWindow it))).

Definition libraryWindow : M (option nat) :=
  it <- item ;; ret (item_libraryWindow it).

Definition iconPath : M unicode := gets (λ s, _iconPath (widget s)).

Definition setIcon (icon : option unicode) : M unit :=
  modify (with_widget (with_ui (with_thumbnailButton (λ b,
    mk_ThumbnailButton (toolTip b) icon (mk_QSize 200 200) (maximumSize b) []
                       (menu b))))).

(** [hasattr(self.ui, "thumbnailButton")] holds, see [Ui].  The icon size
    is stored as given; the two maximum sizes are what Qt makes of the
    size given. *)
Definition updateThumbnailSize : M unit :=
  w <- gets (λ s, width (host s)) ;;
  let width := w - 10 in
  let width := if 250 <? width then 250 else width in
  let size := mk_QSize width width in
  modify (with_widget (with_ui (λ form, set_thumbnailFrame (accepted_maximumSize size)
    (with_thumbnailButton (λ b,
       mk_ThumbnailButton (toolTip b) (icon b) size (accepted_maximumSize size)
                          (text b) (menu b)) form)))).

(** [self.ui.thumbnailButton.iconSize()] *)
Definition thumbnailButton_iconSize (s : State) : QSize :=
  reported_iconSize (PM_ButtonIconSize (host s))
                    (iconSize (ui_thumbnailButton (ui (widget s)))).

Definition setIconPath (path : unicode) : M unit :=
  modify (with_widget (set_iconPath path)) ;;
  let icon := Some path in
  setIcon icon ;;
  updateThumbnailSize.

Definition saveSettings : M unit := emit EvSaveSettings.

Definition folderPath : M unicode := gets (λ s, ui_folderEdit (ui (widget s))).

Definition showSelectionSetsMenu : M unit :=
  path <- folderPath ;;
  libraryWindow <- libraryWindow ;;
  emit (EvSetsMenu path libraryWindow).

Definition scriptJob : M (option nat) := gets (λ s, _scriptJob (widget s)).

(** [if not self._scriptJob] and [if sj] test the handle against [None]:
    a [ScriptJob] instance is true. *)
Definition setScriptJobEnabled (enable : bool) : M unit :=
  if enable then
    cur <- gets (λ s, _scriptJob (widget s)) ;;
    match cur with
    | None =>
        j <- mutils_ScriptJob (u "SelectionChanged") ;;
        modify (with_widget (set_scriptJob (Some j)))
    | Some _ => ret tt
    end
  else
    sj <- scriptJob ;;
    match sj with
    | Some j => ScriptJob_kill j
    | None => ret tt
    end ;;
    modify (with_widget (set_scriptJob None)).

Definition close : M unit :=
  setScriptJobEnabled false ;;
  QWidget_close.

Definition resizeEvent : M unit := updateThumbnailSize.

Definition objectCount : M nat :=
  selection <- try_except
                 (ls <- maya_cmds_ls ;; ret (or_empty ls))
                 isinstance_NameError
                 (λ error, emit (EvLog (str error)) ;; ret []) ;;
  ret (length selection).

Definition updateContains : M unit :=
  has <- gets (λ s, ui_contains (ui (widget s))) ;;
  match has with
  | Some _ =>
      count <- objectCount ;;
      let plural := if (1 <? count)%nat then (u "s") else [] in
      modify (with_widget (with_ui (set_contains
        (Some (u (pretty count) ++ (u " Object") ++ plural)))))
  | None => ret tt
  end.

Definition name : M unicode := gets (λ s, strip (ui_name (ui (widget s)))).

Definition description : M unicode := gets (λ s, strip (ui_comment (ui (widget s)))).

Definition setFolderPath (path : unicode) : M unit :=
  modify (with_widget (with_ui (set_folderEdit path))).

Definition browseFolder : M unit :=
  path <- folderPath ;;
  path <- gets (λ s, existing_directory (host s)) ;;
  when (bool_str path) (setFolderPath path).

Definition selectionChanged : M unit :=
  updateContains ;;
  ow <- gets (λ s, _optionsWidget (widget s)) ;;
  match ow with
  | Some _ => emit EvValidate
  | None => ret tt
  end.

Definition _thumbnailCaptured (path : unicode) : M unit := setIconPath path.

Definition thumbnailCapture : M unit :=
  path <- gets (λ s, tempThumbnailPath (host s)) ;;
  mutils_gui_thumbnailCapture path _thumbnailCaptured.

Definition setCaptureMenuEnabled (enable : bool) : M unit :=
  emit (EvLog ((u "Setting capture menu to ") ++ (if enable then (u "True") else (u "False")))) ;;
  m <- (if enable then
          parent <- gets (λ s, parent (host s)) ;;
          iconPath <- gets (λ s, tempThumbnailPath (host s)) ;;
          ret (ThumbnailCaptureMenu iconPath true parent)
        else ret QMenu) ;;
  modify (with_widget (with_ui (with_thumbnailButton (λ b,
    mk_ThumbnailButton (toolTip b) (icon b) (iconSize b) (maximumSize b) (text b)
                       (Some m))))).

Definition showThumbnailCaptureDialog : M Z :=
  let title := (u "Create a thumbnail") in
  let text := (u "Would you like to capture a thumbnail?") in
  let buttons := Z.lor (Z.lor Yes Ignore) Cancel in
  parent <- libraryWindow ;;
  button <- MessageBox_question parent title text buttons ;;
  when (button =? Yes) thumbnailCapture ;;
  ret button.

Definition save (objects : list unicode) (path iconPath : unicode)
    (metadata : gmap unicode unicode) : M unit :=
  it <- item ;;
  Item_save it objects path iconPath metadata ;;
  close.

Definition msg_no_folder : unicode :=
  (u "No folder selected. Please select a destination folder.").
Definition msg_no_name : unicode :=
  (u "No name specified. Please set a name before saving.").
Definition msg_no_objects : unicode :=
  (u "No objects selected. Please select at least one object.").

Definition accept : M unit :=
  try_except
    (name <- name ;;
     path <- folderPath ;;
     ls <- maya_cmds_ls ;;
     let objects := or_empty ls in
     when (negb (bool_str path)) (raise (mk_exn Exception msg_no_folder)) ;;
     when (negb (bool_str name)) (raise (mk_exn Exception msg_no_name)) ;;
     when (negb (bool_list objects)) (raise (mk_exn Exception msg_no_objects)) ;;
     icon <- iconPath ;;
     found <- os_path_exists icon ;;
     cancelled <- (if negb found then
                     button <- showThumbnailCaptureDialog ;;
                     ret (button =? Cancel)
                   else ret false) ;;
     if cancelled : bool then ret tt
     else
       let path := path ++ (u "/") ++ name in
       iconPath <- iconPath ;;
       d <- description ;;
       let metadata : gmap unicode unicode := {[ (u "description") := d ]} in
       save objects path iconPath metadata)
    isinstance_Exception
    (λ e,
       let title := (u "Error while saving") in
       lw <- libraryWindow ;;
       MessageBox_critical lw title (str e) ;;
       raise e).

Definition setItem (item : Item) : M unit :=
  modify (with_widget (set_item item)) ;;
  frame <- gets (λ s, ui_optionsFrame (ui (widget s))) ;;
  match frame with
  | Some f =>
      let options := options item in
      if bool_list options then
        let optionsWidget := mk_OptionsWidget (saveOptions item) (saveValidator item) in
        modify (with_widget (with_ui (set_optionsFrame
          (Some (mk_OptionsFrame (of_visible f) (of_widgets f ++ [optionsWidget])))))) ;;
        modify (with_widget (set_optionsWidget (Some optionsWidget)))
      else
        modify (with_widget (with_ui (set_optionsFrame
          (Some (mk_OptionsFrame false (of_widgets f))))))
  | None => ret tt
  end.

Definition tooltip_text : unicode :=
  (u "Click to capture a thumbnail from the current model panel.") ++ [10%N] ++
  (u "CTRL + Click to show the capture window for better framing.").

(** The object as lines 47-59 of [__init__] leave it: the design file
    loaded, the private fields at their first values. *)
Definition new (item : Item) (ui0 : Ui) (h : Host) : State :=
  mk_State (mk_Widget item [] None None ui0) h.

(** From line 61 on.  Object name, window title and the four signal
    connections have no effect on the state modelled here. *)
Definition __init__ (item : Item) : M unit :=
  modify (with_widget (with_ui (with_thumbnailButton (λ b,
    mk_ThumbnailButton tooltip_text (icon b) (iconSize b) (maximumSize b) (text b)
                       (menu b))))) ;;
  setCaptureMenuEnabled true ;;
  try_except
    (selectionChanged ;; setScriptJobEnabled true)
    isinstance_NameError
    (λ error, emit (EvLog (str error))) ;;
  setItem item ;;
  updateContains ;;
  updateThumbnailSize.

(** ** Observations *)

(** The value a method returns in a state, if it returns. *)
Definition get {A} (m : M A) (s : State) : option A :=
  match result (m s) with Return a => Some a | Raise _ => None end.

Definition is_ItemSave (e : Event) : bool :=
  match e with EvItemSave _ _ _ _ => true | _ => false end.
Definition is_Question (e : Event) : bool :=
  match e with EvQuestion _ _ _ _ => true | _ => false end.
Definition is_Critical (e : Event) : bool :=
  match e with EvCritical _ _ _ => true | _ => false end.
Definition is_Kill (e : Event) : bool :=
  match e with EvKill _ => true | _ => false end.
Definition is_Close (e : Event) : bool :=
  match e with EvQWidgetClose => true | _ => false end.

Definition save_calls (l : list Event) : list Event := List.filter is_ItemSave l.
Definition questions (l : list Event) : list Event := List.filter is_Question l.
Definition criticals (l : list Event) : list Event := List.filter is_Critical l.
Definition kills (l : list Event) : list Event := List.filter is_Kill l.
Definition closes (l : list Event) : list Event := List.filter is_Close l.

(** The paths handed to the capture callback, oldest first. *)
Fixpoint captured_paths (l : list Event) : list unicode :=
  match l with
  | [] => []
  | EvCaptured p :: r => p :: captured_paths r
  | _ :: r => captured_paths r
  end.

(** The question asked by [showThumbnailCaptureDialog]. *)
Definition capture_question (s : State) : Event :=
  EvQuestion (item_libraryWindow (_item (widget s))) (u "Create a thumbnail")
             (u "Would you like to capture a thumbnail?") (Z.lor (Z.lor Yes Ignore) Cancel).

(** The dialog of the [except] clause of [accept]. *)
Definition error_dialog (s : State) (e : exn) : Event :=
  EvCritical (item_libraryWindow (_item (widget s))) (u "Error while saving") (str e).


(** The three validations of [accept] pass. *)
Definition validated (s : State) : Prop :=
  get folderPath s ≠ Some [] ∧ get name s ≠ Some [] ∧
  or_empty (ls_selection (host s)) ≠ [].

(** [m] run [n] times in a row. *)
Fixpoint times (n : nat) (m : M unit) : M unit :=
  match n with
  | O => ret tt
  | S n => m ;; times n m
  end.

(** The live script jobs a handle accounts for. *)
Definition jobs_of (handle : option nat) : gset nat :=
  match handle with
  | Some j => {[ j ]}
  | None => ∅
  end.

(** The handle accounts for every live script job of the widget. *)
Definition jobs_accounted (s : State) : Prop :=
  scriptJobs (host s) = jobs_of (_scriptJob (widget s)).

(** ** The life of a widget

    Every method with an effect, as a call; the getters change nothing. *)
Inductive Call :=
| call_setLibraryWindow (libraryWindow : option nat)
| call_setItem (item : Item)
| call_setIconPath (path : unicode)
| call_setIcon (icon : option unicode)
| call_saveSettings
| call_showSelectionSetsMenu
| call_close
| call_setScriptJobEnabled (enable : bool)
| call_resizeEvent
| call_updateThumbnailSize
| call_updateContains
| call_setFolderPath (path : unicode)
| call_browseFolder
| call_selectionChanged
| call_thumbnailCaptured (path : unicode)
| call_thumbnailCapture
| call_setCaptureMenuEnabled (enable : bool)
| call_showThumbnailCaptureDialog
| call_accept
| call_save (objects : list unicode) (path iconPath : unicode)
            (metadata : gmap unicode unicode).

Definition call (c : Call) : M unit :=
  match c with
  | call_setLibraryWindow lw => setLibraryWindow lw
  | call_setItem it => setItem it
  | call_setIconPath p => setIconPath p
  | call_setIcon i => setIcon i
  | call_saveSettings => saveSettings
  | call_showSelectionSetsMenu => showSelectionSetsMenu
  | call_close => close
  | call_setScriptJobEnabled b => setScriptJobEnabled b
  | call_resizeEvent => resizeEvent
  | call_updateThumbnailSize => updateThumbnailSize
  | call_updateContains => updateContains
  | call_setFolderPath p => setFolderPath p
  | call_browseFolder => browseFolder
  | call_selectionChanged => selectionChanged
  | call_thumbnailCaptured p => _thumbnailCaptured p
  | call_thumbnailCapture => thumbnailCapture
  | call_setCaptureMenuEnabled b => setCaptureMenuEnabled b
  | call_showThumbnailCaptureDialog => showThumbnailCaptureDialog ;; ret tt
  | call_accept => accept
  | call_save o p i m => save o p i m
  end.

(** Whether a call is [setIconPath] or the capture callback. *)
Definition sets_icon_path (c : Call) : option unicode :=
  match c with
  | call_setIconPath p | call_thumbnailCaptured p => Some p
  | _ => None
  end.

Definition edit_text (name comment folder : unicode) (u : Ui) : Ui :=
  mk_Ui name comment folder (ui_thumbnailButton u) (ui_thumbnailFrame u)
        (ui_contains u) (ui_optionsFrame u).

(** One step in the life of the widget: a method is called (whether it
    returns or raises, its effects stay), the user types into the text
    fields, or the host moves on (selection, files, size, what the user
    will answer) without touching the script jobs of this widget. *)
Inductive step : State → State → Prop :=
| step_call (c : Call) (s : State) :
    step s (state_after (call c s))
| step_edit (name comment folder : unicode) (s : State) :
    step s (with_widget (with_ui (edit_text name comment folder)) s)
| step_host (h : Host) (s : State) :
    scriptJobs h = scriptJobs (host s) →
    next_scriptJob h = next_scriptJob (host s) →
    step s (mk_State (widget s) h).

(** The states a widget built by [BaseCreateWidget(item)] can be in, where
    the host has no script job of the widget before it exists. *)
Inductive reachable (item : Item) (ui0 : Ui) (h0 : Host) : State → Prop :=
| reach_init :
    scriptJobs h0 = ∅ →
    reachable item ui0 h0 (state_after (__init__ item (new item ui0 h0)))
| reach_step (s s' : State) :
    reachable item ui0 h0 s → step s s' → reachable item ui0 h0 s'.

(** ** More observations *)

Definition is_job_event (e : Event) : bool :=
  match e with EvScriptJob _ _ | EvKill _ => true | _ => false end.

(** The registrations and kills of a log, in order. *)
Definition job_events (l : list Event) : list Event := List.filter is_job_event l.

(** Reading a log from a handle: a registration is in order when no job
    is held, a kill when it is of the job held.  The result is the handle
    at the end of the log, or [None] when the log is out of order. *)
Fixpoint held_after (handle : option nat) (l : list Event) : option (option nat) :=
  match l with
  | [] => Some handle
  | EvScriptJob j _ :: r =>
      match handle with
      | None => held_after (Some j) r
      | Some _ => None
      end
  | EvKill j :: r =>
      match handle with
      | Some j' => if decide (j = j') then held_after None r else None
      | None => None
      end
  | _ :: r => held_after handle r
  end.

(** A list of calls dispatched one after the other, as the event loop
    does: an exception that leaves a slot ends that call and no more. *)
Fixpoint dispatch (cs : list Call) (s : State) : State * list Event :=
  match cs with
  | [] => (s, [])
  | c :: cs =>
      let r := call c s in
      let r' := dispatch cs (state_after r) in
      (r'.1, events r ++ r'.2)
  end.

(** The calls on whose path [setScriptJobEnabled] lies. *)
Definition reaches_setScriptJobEnabled (c : Call) : bool :=
  match c with
  | call_setScriptJobEnabled _ | call_close | call_save _ _ _ _ | call_accept => true
  | _ => false
  end.

(** The options widget the widget holds is laid out in the options
    frame. *)
Definition options_laid_out (s : State) : Prop :=
  match _optionsWidget (widget s) with
  | Some ow => ∃ f, ui_optionsFrame (ui (widget s)) = Some f ∧ In ow (of_widgets f)
  | None => True
  end.

(** The thumbnail button and its frame are capped at one square, of side
    250 at most. *)
Definition thumbnail_capped (s : State) : Prop :=
  ∃ side, side ≤ 250
          ∧ maximumSize (ui_thumbnailButton (ui (widget s))) = mk_QSize side side
          ∧ ui_thumbnailFrame (ui (widget s)) = mk_QSize side side.

(** ** Sample values *)

Module Sample.

Definition button : ThumbnailButton :=
  mk_ThumbnailButton [] None (mk_QSize 0 0) (mk_QSize 0 0) [] None.

Definition form (name comment folder : unicode) : Ui :=
  mk_Ui name comment folder button (mk_QSize 0 0) (Some [])
        (Some (mk_OptionsFrame true [])).

(** An item whose [save] has the given outcome. *)
Definition item_with (outcome : option exn) : Item :=
  mk_Item [(u "namespaces")] [(u "namespaces")] 0%nat (Some 7%nat) (λ _ _ _ _, outcome).

Definition session (selection : option (list unicode)) (files : unicode → bool)
    (answer : Z) (capture : option unicode) (wide : Z) : Host :=
  mk_Host selection files answer capture (u "/tmp/thumbnail.jpg") [] wide None 16
          ∅ 0%nat.

Definition no_file : unicode → bool := λ _, false.
Definition any_file : unicode → bool := λ _, true.

(** A widget with a live script job, a filled form and one selected
    object. *)
Definition filled (outcome : option exn) (files : unicode → bool) (answer : Z)
    (capture : option unicode) : State :=
  mk_State
    (mk_Widget (item_with outcome) [] (Some 0%nat) None
               (form (u " pose ") (u " a pose ") (u "/lib")))
    (mk_Host (Some [(u "pCube1")]) files answer capture (u "/tmp/thumbnail.jpg") [] 400
               None 16 {[ 0%nat ]} 1%nat).

Definition with_form (name comment folder : unicode) (s : State) : State :=
  with_widget (with_ui (edit_text name comment folder)) s.

(** A widget as [__init__] leaves it. *)
Definition fresh : State :=
  state_after
    (__init__ (item_with None)
       (new (item_with None) (form [] [] [])
            (session (Some [(u "pCube1")]) no_file Yes None 400))).

(** The same widget squeezed to a width of 5. *)
Definition narrow : State :=
  mk_State (widget fresh) (session (Some [(u "pCube1")]) no_file Yes None 5).



(** A no-break space, a file separator and an ideographic space. *)
Definition blank : unicode := [0xA0; 0x1C; 0x3000]%N.

(** "pose" between a file separator and a no-break space. *)
Definition padded_pose : unicode := ([0x1C] ++ u "pose" ++ [0xA0])%N.

(** The item's [save] fails to write. *)
Definition failing : State :=
  filled (Some (mk_exn IOError (u "disk full"))) any_file Cancel None.

End Sample.

(** * Proofs *)

(** ** The definitions at work *)

Example strip_both_ends : strip (u "  a pose 	") = (u "a pose").
Proof. reflexivity. Qed.

Example strip_keeps_inner_space : strip (u "a  b") = (u "a  b").
Proof. reflexivity. Qed.

Example strip_blank : strip (u " 	 ") = [].
Proof. reflexivity. Qed.

Example strip_unicode_whitespace :
  strip Sample.blank = [] ∧ strip Sample.padded_pose = u "pose"
  ∧ strip [0x85; 0x2003; 0x70; 0x3000; 0x71; 0x202F; 0x1F]%N = [0x70; 0x3000; 0x71]%N.
Proof. by vm_compute. Qed.

(** Neither a zero width space nor an accented letter is whitespace. *)
Example strip_keeps_other_characters :
  strip [0x200B; 0xE0]%N = [0x200B; 0xE0]%N.
Proof. reflexivity. Qed.

Example or_empty_None : or_empty (None : option (list unicode)) = [].
Proof. reflexivity. Qed.

Example or_empty_selection : or_empty (Some [(u "pCube1"); (u "pCube2")]) = [(u "pCube1"); (u "pCube2")].
Proof. reflexivity. Qed.

Example buttons_flags : Z.lor (Z.lor Yes Ignore) Cancel = 0x504000.
Proof. reflexivity. Qed.

(** A save with no thumbnail yet: the user answers Yes, a thumbnail is
    captured, the item saves, the script job is killed, the widget
    closes. *)
Example accept_run :
  events (accept (Sample.filled None Sample.no_file Yes (Some (u "/tmp/thumbnail.jpg")))) =
    [EvQuestion (Some 7%nat) (u "Create a thumbnail")
                (u "Would you like to capture a thumbnail?") 0x504000;
     EvThumbnailCapture (u "/tmp/thumbnail.jpg");
     EvCaptured (u "/tmp/thumbnail.jpg");
     EvItemSave [(u "pCube1")] (u "/lib/pose") (u "/tmp/thumbnail.jpg")
                {[ (u "description") := (u "a pose") ]};
     EvKill 0;
     EvQWidgetClose].
Proof. by vm_compute. Qed.

Example construction_registers_one_job :
  _scriptJob (widget Sample.fresh) = Some 0%nat
  ∧ ui_contains (ui (widget Sample.fresh)) = Some (u "1 Object")
  ∧ iconSize (ui_thumbnailButton (ui (widget Sample.fresh))) = mk_QSize 250 250.
Proof. by vm_compute. Qed.

Example narrow_widget :
  ui_thumbnailFrame (ui (widget (state_after (updateThumbnailSize
    (with_host (λ h, Sample.session None Sample.no_file Yes None 120)
               Sample.fresh))))) = mk_QSize 110 110.
Proof. reflexivity. Qed.

(** ** Symbolic execution of the methods *)

Ltac unfold_methods :=
  cbv [accept save close setScriptJobEnabled showThumbnailCaptureDialog
       thumbnailCapture _thumbnailCaptured setIconPath setIcon
       updateThumbnailSize name folderPath description iconPath
       libraryWindow item scriptJob get resizeEvent setFolderPath
       call setLibraryWindow setItem saveSettings showSelectionSetsMenu
       updateContains objectCount browseFolder selectionChanged
       setCaptureMenuEnabled __init__ new isinstance_NameError
       maya_cmds_ls os_path_exists mutils_ScriptJob ScriptJob_kill
       QWidget_close MessageBox_question MessageBox_critical
       mutils_gui_thumbnailCapture Item_save isinstance_Exception
       validated capture_question error_dialog
       try_except bind ret raise gets modify emit when
       result state_after events] in *.

Ltac case_on x :=
  lazymatch x with
  | context [match _ with _ => _ end] => fail
  | context [if _ then _ else _] => fail
  | negb ?b => case_on b
  | bool_str ?v => destruct v eqn:?
  | bool_list ?l => destruct l eqn:?
  | _ => destruct x eqn:?
  end.

Ltac run_step :=
  match goal with
  | H : ?x = _ |- context [match ?x with _ => _ end] => rewrite H
  | |- context [match ?x with _ => _ end] => case_on x
  | H : ?x = _, H' : context [match ?x with _ => _ end] |- _ => rewrite H in H'
  | H' : context [match ?x with _ => _ end] |- _ => case_on x
  end.

(** Two different buttons were not both pressed. *)
Ltac buttons :=
  repeat match goal with
         | H : (_ =? _) = true |- _ => apply Z.eqb_eq in H
         | H : (_ =? _) = false |- _ => apply Z.eqb_neq in H
         end;
  unfold Yes, Ignore, Cancel in *; subst; try congruence; try lia.

Ltac run :=
  unfold_methods;
  repeat (cbn -[strip Z.eqb Z.lor Z.ltb Nat.ltb pretty difference union] in *;
          simplify_eq; try run_step);
  try done; try (exfalso; buttons; fail).

(** Killing the one live job leaves none; registering one where there is
    none leaves one. *)
Ltac jobs :=
  cbn; rewrite ?difference_diag_L, ?(right_id_L (∅ : gset nat) (∪)); done.

Ltac open_state s :=
  destruct s as [[it ip sj ow [nm cm fd tb tf ct ofr]]
                 [ls pe qa cr tp ed wd pr pm js nx]].

(** *** The refusals of [accept] *)




(** *** The calls of [save] and [close] *)

Lemma setScriptJobEnabled_False (s : State) :
  setScriptJobEnabled false s =
    (Return tt,
     mk_State (set_scriptJob None (widget s))
       (match _scriptJob (widget s) with
        | Some j => set_scriptJobs (scriptJobs (host s) ∖ {[ j ]})
                                   (next_scriptJob (host s)) (host s)
        | None => host s
        end),
     match _scriptJob (widget s) with Some j => [EvKill j] | None => [] end).
Proof. open_state s. by run. Qed.

Lemma close_eq (s : State) :
  close s = (Return tt, state_after (setScriptJobEnabled false s),
             events (setScriptJobEnabled false s) ++ [EvQWidgetClose]).
Proof. open_state s. by run. Qed.

Lemma save_returns (s : State) objects path iconPath metadata :
  item_save (_item (widget s)) objects path iconPath metadata = None →
  save objects path iconPath metadata s =
    (Return tt, state_after (close s),
     EvItemSave objects path iconPath metadata :: events (close s)).
Proof. open_state s. intros H. by run. Qed.

Lemma save_raises (s : State) objects path iconPath metadata e :
  item_save (_item (widget s)) objects path iconPath metadata = Some e →
  save objects path iconPath metadata s =
    (Raise e, s, [EvItemSave objects path iconPath metadata]).
Proof. open_state s. intros H. by run. Qed.

Lemma bind_Return {A B} (m : M A) (k : A → M B) (s s1 : State) a l1 :
  m s = (Return a, s1, l1) →
  bind m k s = (result (k a s1), state_after (k a s1), l1 ++ events (k a s1)).
Proof.
  intros H. unfold bind, result, state_after, events. rewrite H.
  by destruct (k a s1) as [[? ?] ?].
Qed.

Lemma close_handle (s : State) :
  _scriptJob (widget (state_after (close s))) = None.
Proof. by rewrite close_eq, setScriptJobEnabled_False. Qed.

Lemma close_kills (s : State) :
  kills (events (close s)) =
    match _scriptJob (widget s) with Some j => [EvKill j] | None => [] end.
Proof.
  rewrite close_eq, setScriptJobEnabled_False. cbn.
  by destruct (_scriptJob (widget s)).
Qed.

Lemma close_returns (s : State) :
  close s = (Return tt, state_after (close s), events (close s)).
Proof. by rewrite close_eq. Qed.

Lemma times_close_kills (n : nat) (s : State) :
  kills (events (times n close s)) =
    match n, _scriptJob (widget s) with
    | S _, Some j => [EvKill j]
    | _, _ => []
    end.
Proof.
  revert s. induction n as [| n IH]; intros s; [done |].
  cbn [times]. rewrite (bind_Return _ _ _ _ _ _ (close_returns s)).
  cbn [events snd]. unfold kills at 1. rewrite List.filter_app.
  fold (kills (events (close s))). fold (kills (events (times n close (state_after (close s))))).
  rewrite IH, close_kills, close_handle.
  destruct n, (_scriptJob (widget s)); done.
Qed.

(** *** [accept] once the input is validated: prompt, save, report *)

Lemma accept_validated (s : State) :
  validated s →
  let asked := negb (path_exists (host s) (_iconPath (widget s))) in
  let prompt := showThumbnailCaptureDialog s in
  let s1 := if asked then state_after prompt else s in
  let l1 := if asked then events prompt else [] in
  let r := save (or_empty (ls_selection (host s)))
                (ui_folderEdit (ui (widget s)) ++ (u "/") ++
                   strip (ui_name (ui (widget s))))
                (_iconPath (widget s1))
                {[ (u "description") := strip (ui_comment (ui (widget s))) ]} s1 in
  accept s =
    if asked && (question_answer (host s) =? Cancel)
    then (Return tt, s, [capture_question s])
    else (result r, state_after r,
          l1 ++ events r ++
            match result r with
            | Raise e => if isinstance_Exception e then [error_dialog s e] else []
            | Return _ => []
            end).
Proof.
  open_state s. intros (Hf & Hn & Ho). by run.
Qed.

(** ** The save flow *)



(** C2. Once the three validations pass: if no file exists at the icon
    path the thumbnail question is asked (once); if the user then presses
    Cancel, [accept] returns normally having neither called the item's
    [save] nor closed the widget (nothing but the question happened); if a
    file exists at the icon path no question is asked. *)
Theorem accept_thumbnail_prompt (s : State) :
  validated s →
  let icon_exists := path_exists (host s) (_iconPath (widget s)) in
  (icon_exists = false → questions (events (accept s)) = [capture_question s])
  ∧ (icon_exists = false → question_answer (host s) = Cancel →
       result (accept s) = Return tt
       ∧ save_calls (events (accept s)) = []
       ∧ closes (events (accept s)) = [] ∧ kills (events (accept s)) = []
       ∧ events (accept s) = [capture_question s]
       ∧ state_after (accept s) = s)
  ∧ (icon_exists = true → questions (events (accept s)) = []).
Proof.
  intros Hv icon_exists. subst icon_exists.
  pose proof (accept_validated s Hv) as Ha. cbv zeta in Ha.
  split; [| split].
  - intros Hx. clear Ha. open_state s. destruct Hv as (Hf & Hn & Ho). by run.
  - intros Hx Hc. rewrite Hx, Hc in Ha. cbn in Ha. rewrite Ha. by repeat split.
  - intros Hx. clear Ha. open_state s. destruct Hv as (Hf & Hn & Ho). by run.
Qed.

Lemma accept_thumbnail_prompt_witness :
  let s := Sample.filled None Sample.no_file Cancel None in
  let s' := Sample.filled None Sample.any_file Cancel None in
  (validated s ∧ result (accept s) = Return tt ∧ events (accept s) = [capture_question s])
  ∧ (validated s' ∧ questions (events (accept s')) = []).
Proof.
  intros s s'.
  assert (validated s) as Hv by (unfold validated; split_and!; intros E; vm_compute in E; discriminate E).
  assert (validated s') as Hv' by (unfold validated; split_and!; intros E; vm_compute in E; discriminate E).
  pose proof (accept_thumbnail_prompt s Hv) as (_ & H2 & _).
  pose proof (accept_thumbnail_prompt s' Hv') as (_ & _ & H3).
  split.
  - split; [exact Hv |]. specialize (H2 eq_refl eq_refl). tauto.
  - split; [exact Hv' |]. exact (H3 eq_refl).
Defined.

(** C3. When the item's [save] returns, the widget's [save] goes on to
    [close], which disables the script job before Qt closes the widget.
    In every state one [close] leaves the handle at [None], a second
    [close] kills nothing, and however often [close] is repeated the
    subscription the widget held is killed exactly once. *)
Theorem save_closes_and_close_is_idempotent (s : State) (n : nat) :
  (∀ objects path iconPath metadata,
     item_save (_item (widget s)) objects path iconPath metadata = None →
     save objects path iconPath metadata s =
       (Return tt, state_after (close s),
        EvItemSave objects path iconPath metadata :: events (close s)))
  ∧ close s = (Return tt, state_after (setScriptJobEnabled false s),
               events (setScriptJobEnabled false s) ++ [EvQWidgetClose])
  ∧ _scriptJob (widget (state_after (close s))) = None
  ∧ kills (events (close (state_after (close s)))) = []
  ∧ kills (events (times (S n) close s)) =
      match _scriptJob (widget s) with Some j => [EvKill j] | None => [] end.
Proof.
  split_and!.
  - intros. by apply save_returns.
  - apply close_eq.
  - apply close_handle.
  - by rewrite close_kills, close_handle.
  - by rewrite times_close_kills.
Qed.

Lemma save_closes_and_close_is_idempotent_witness :
  save [(u "pCube1")] (u "/lib/pose") [] ∅ (Sample.filled None Sample.no_file Yes None) =
    (Return tt, state_after (close (Sample.filled None Sample.no_file Yes None)),
     [EvItemSave [(u "pCube1")] (u "/lib/pose") [] ∅; EvKill 0; EvQWidgetClose])
  ∧ kills (events (times 3 close (Sample.filled None Sample.no_file Yes None))) =
      [EvKill 0].
Proof.
  pose proof (save_closes_and_close_is_idempotent
                (Sample.filled None Sample.no_file Yes None) 2) as (H1 & _ & _ & _ & H5).
  split; [exact (H1 [(u "pCube1")] (u "/lib/pose") [] ∅ eq_refl) | exact H5].
Defined.

(** C5. In every run of [accept] that gets past the validations and the
    thumbnail prompt, the item's [save] is called exactly once, with the
    selected objects, the folder path followed by "/" and the name field
    stripped, the widget's icon path, and the dictionary that maps
    "description" to the comment field stripped.  The icon path is the
    one the widget holds when [save] is called: the one it had on entry,
    unless the prompt captured a new thumbnail. *)
Theorem accept_save_arguments (s : State) :
  validated s →
  path_exists (host s) (_iconPath (widget s)) = true ∨
    question_answer (host s) ≠ Cancel →
  let folder := ui_folderEdit (ui (widget s)) in
  let stem := strip (ui_name (ui (widget s))) in
  let comment := strip (ui_comment (ui (widget s))) in
  get folderPath s = Some folder ∧ get name s = Some stem
  ∧ get description s = Some comment
  ∧ save_calls (events (accept s)) =
      [EvItemSave (or_empty (ls_selection (host s)))
                  (folder ++ u "/" ++ stem)
                  (_iconPath (widget (state_after (accept s))))
                  {[ u "description" := comment ]}]
  ∧ _iconPath (widget (state_after (accept s))) =
      if path_exists (host s) (_iconPath (widget s)) then _iconPath (widget s)
      else if question_answer (host s) =? Yes
           then default (_iconPath (widget s)) (capture_result (host s))
           else _iconPath (widget s).
Proof.
  intros (Hf & Hn & Ho) Hc folder stem comment. subst folder stem comment.
  split; [done |]. split; [done |]. split; [done |].
  open_state s. destruct Hc; by run.
Qed.

Lemma accept_save_arguments_witness :
  let s := Sample.with_form Sample.padded_pose (u " a pose ") (u "/lib")
             (Sample.filled None Sample.no_file Yes (Some (u "/tmp/thumbnail.jpg"))) in
  validated s
  ∧ save_calls (events (accept s)) =
      [EvItemSave [u "pCube1"] (u "/lib/pose") (u "/tmp/thumbnail.jpg")
                  {[ u "description" := u "a pose" ]}].
Proof.
  intros s.
  assert (validated s) as Hv
    by (unfold validated; split_and!; intros E; vm_compute in E; discriminate E).
  split; [exact Hv |].
  refine (proj1 (proj2 (proj2 (proj2 (accept_save_arguments s Hv _))))).
  right. intros E. vm_compute in E. discriminate E.
Defined.

Ltac split_cases :=
  repeat match goal with
         | H : _ ∨ _ |- _ => destruct H
         | H : False |- _ => destruct H
         | H : _ ∧ _ |- _ => destruct H
         end; simplify_eq.




(** C6. [accept] validates, then delegates, then closes.  The item's
    [save] is called only on validated input; before that call nothing
    has been closed or killed (at most the thumbnail prompt took place);
    the widget is closed, and its script job killed, only after the item's
    [save] has returned; and if the item's [save] raises, that exception
    leaves [accept] with the widget not closed and the script job still
    registered. *)
Theorem accept_validates_saves_closes (s : State) :
  (save_calls (events (accept s)) ≠ [] → validated s)
  ∧ (closes (events (accept s)) ≠ [] ∨ kills (events (accept s)) ≠ [] →
       result (accept s) = Return tt ∧
       ∃ o p i m, In (EvItemSave o p i m) (events (accept s)) ∧
                  item_save (_item (widget s)) o p i m = None)
  ∧ (∀ o p i m, In (EvItemSave o p i m) (events (accept s)) →
       let before := if path_exists (host s) (_iconPath (widget s)) then []
                     else events (showThumbnailCaptureDialog s) in
       closes before = [] ∧ kills before = [] ∧ save_calls before = [] ∧
       match item_save (_item (widget s)) o p i m with
       | None =>
           result (accept s) = Return tt
           ∧ events (accept s) = before ++ EvItemSave o p i m :: events (close s)
       | Some e =>
           result (accept s) = Raise e
           ∧ events (accept s) =
               before ++ EvItemSave o p i m ::
                 (if isinstance_Exception e then [error_dialog s e] else [])
           ∧ closes (events (accept s)) = [] ∧ kills (events (accept s)) = []
           ∧ _scriptJob (widget (state_after (accept s))) = _scriptJob (widget s)
           ∧ scriptJobs (host (state_after (accept s))) = scriptJobs (host s)
       end).
Proof.
  split_and!.
  - open_state s. intros H. unfold validated. run; congruence.
  - open_state s. intros H. run; split_cases; try congruence.
    all: split; [done |]; do 4 eexists; (split; [| eassumption]); cbn; tauto.
  - open_state s. intros o p i m H. run; split_cases; try congruence.
    all: by split_and!.
Qed.

Lemma accept_validates_saves_closes_witness :
  validated Sample.failing
  ∧ result (accept Sample.failing) = Raise (mk_exn IOError (u "disk full"))
  ∧ closes (events (accept Sample.failing)) = []
  ∧ _scriptJob (widget (state_after (accept Sample.failing))) = Some 0%nat.
Proof.
  pose proof (accept_validates_saves_closes Sample.failing) as (H1 & _ & H3).
  split; [apply H1; vm_compute; discriminate |].
  specialize (H3 [(u "pCube1")] (u "/lib/pose") [] {[ (u "description") := (u "a pose") ]}).
  cbv zeta in H3. destruct H3 as (_ & _ & _ & H3); [left; reflexivity |].
  change (item_save (_item (widget Sample.failing)) [(u "pCube1")] (u "/lib/pose") []
            {[ (u "description") := (u "a pose") ]})
    with (Some (mk_exn IOError (u "disk full"))) in H3.
  destruct H3 as (Hr & _ & Hc & _ & Hj & _).
  split_and!; [exact Hr | exact Hc | exact Hj].
Defined.


(** ** Whitespace *)



Lemma app_String (c : N) (a b : unicode) :
  (c :: a) ++ b = (c :: (a ++ b)).
Proof. reflexivity. Qed.

Lemma app_empty (a : unicode) : [] ++ a = a.
Proof. reflexivity. Qed.

(** [lstrip] removes a run of whitespace at the front and stops at the
    first other character. *)
Lemma lstrip_spec (t : unicode) :
  ∃ pre, t = pre ++ lstrip t ∧ whitespace_only pre = true ∧
         match lstrip t with
         | (c :: _) => isspace c = false
         | [] => True
         end.
Proof.
  induction t as [| c t (pre & Ht & Hpre & Hhd)].
  - by exists [].
  - cbn. destruct (isspace c) eqn:Hc.
    + exists ((c :: pre)). rewrite app_String, <- Ht. cbn. by rewrite Hc, Hpre.
    + exists []. by rewrite Hc.
Qed.

(** [rstrip] removes a run of whitespace at the back, stops at the last
    other character, and leaves the front alone. *)
Lemma rstrip_spec (t : unicode) :
  ∃ post, t = rstrip t ++ post ∧ whitespace_only post = true ∧
          match last_char (rstrip t) with
          | Some c => isspace c = false
          | None => True
          end ∧
          match t, rstrip t with
          | (c :: _), (c' :: _) => c' = c
          | _, _ => True
          end.
Proof.
  induction t as [| c t (post & Ht & Hpost & Hlast & Hhd)].
  - by exists [].
  - cbn. destruct (rstrip t) as [| c' r] eqn:Hr.
    + rewrite app_empty in Ht. subst post. destruct (isspace c) eqn:Hc.
      * exists ((c :: t)). rewrite app_empty. cbn. by rewrite Hc, Hpost.
      * exists t. cbn. by rewrite Hc.
    + exists post. rewrite app_String, <- Ht. by split_and!.
Qed.

(** [strip] removes the whitespace around a text and nothing else. *)
Lemma strip_spec (t : unicode) :
  ∃ pre post,
    t = pre ++ strip t ++ post
    ∧ whitespace_only pre = true ∧ whitespace_only post = true
    ∧ match strip t with
      | (c :: _) => isspace c = false
      | [] => True
      end
    ∧ match last_char (strip t) with
      | Some c => isspace c = false
      | None => True
      end.
Proof.
  destruct (lstrip_spec t) as (pre & Ht & Hpre & Hhd).
  destruct (rstrip_spec (lstrip t)) as (post & Hl & Hpost & Hlast & Hsame).
  exists pre, post. unfold strip. split_and!; try done.
  - by rewrite <- Hl.
  - destruct (lstrip t) as [| c r]; [done |].
    destruct (rstrip ((c :: r))); [done | by subst].
Qed.



(** ** Thumbnail geometry *)

Lemma accepted_square (side : Z) :
  0 ≤ side ≤ 250 → accepted_maximumSize (mk_QSize side side) = mk_QSize side side.
Proof. intros H. unfold accepted_maximumSize, QWIDGETSIZE_MAX. cbn. f_equal; lia. Qed.

Lemma accepted_negative (side : Z) :
  side < 0 → accepted_maximumSize (mk_QSize side side) = mk_QSize 0 0.
Proof. intros H. unfold accepted_maximumSize, QWIDGETSIZE_MAX. cbn. f_equal; lia. Qed.

Lemma reported_valid (metric side : Z) :
  0 ≤ side → reported_iconSize metric (mk_QSize side side) = mk_QSize side side.
Proof.
  intros H. unfold reported_iconSize, isValid. cbn.
  by destruct (Z.leb_spec 0 side); [| lia].
Qed.

Lemma reported_invalid (metric side : Z) :
  side < 0 → reported_iconSize metric (mk_QSize side side) = mk_QSize metric metric.
Proof.
  intros H. unfold reported_iconSize, isValid. cbn.
  by destruct (Z.leb_spec 0 side); [lia |].
Qed.

(** C10, refuted as stated: at width 5 the square asked for has side
    [min (5 - 10) 250 = -5]; Qt does not take it, the two maximum sizes
    are 0 by 0 and the icon size is the style's default. *)
Lemma updateThumbnailSize_narrow_not_square :
  Z.min (width (host Sample.narrow) - 10) 250 = -5
  ∧ maximumSize (ui_thumbnailButton (ui (widget
      (state_after (updateThumbnailSize Sample.narrow))))) = mk_QSize 0 0
  ∧ ui_thumbnailFrame (ui (widget
      (state_after (updateThumbnailSize Sample.narrow)))) = mk_QSize 0 0
  ∧ thumbnailButton_iconSize (state_after (updateThumbnailSize Sample.narrow)) =
      mk_QSize 16 16.
Proof. by vm_compute. Qed.

(** C10, amended. For every width [w] of at least 10,
    [updateThumbnailSize] sets the icon size and the maximum size of the
    thumbnail button and the maximum size of the thumbnail frame to the
    square of side [min (w - 10) 250].  Below 10 that side is negative:
    the two maximum sizes are 0 by 0 and the icon size is the style's
    default.  The side never exceeds 250. *)
Theorem updateThumbnailSize_square (s : State) :
  let w := width (host s) in
  let side := Z.min (w - 10) 250 in
  let s' := state_after (updateThumbnailSize s) in
  let b' := ui_thumbnailButton (ui (widget s')) in
  result (updateThumbnailSize s) = Return tt
  ∧ side ≤ 250
  ∧ (10 ≤ w →
       thumbnailButton_iconSize s' = mk_QSize side side
       ∧ maximumSize b' = mk_QSize side side
       ∧ ui_thumbnailFrame (ui (widget s')) = mk_QSize side side)
  ∧ (w < 10 →
       thumbnailButton_iconSize s' =
         mk_QSize (PM_ButtonIconSize (host s)) (PM_ButtonIconSize (host s))
       ∧ maximumSize b' = mk_QSize 0 0
       ∧ ui_thumbnailFrame (ui (widget s')) = mk_QSize 0 0).
Proof.
  intros w side s' b'. subst w side s' b'. open_state s.
  unfold thumbnailButton_iconSize. unfold_methods. cbn.
  split; [done |]. split; [lia |].
  destruct (Z.ltb_spec 250 (wd - 10)); split; intros Hw; try lia.
  - rewrite Z.min_r by lia. by rewrite accepted_square by lia.
  - rewrite Z.min_l by lia.
    rewrite accepted_square, reported_valid by lia. done.
  - rewrite accepted_negative, reported_invalid by lia. done.
Qed.

Lemma updateThumbnailSize_square_witness :
  (maximumSize (ui_thumbnailButton (ui (widget
     (state_after (updateThumbnailSize Sample.fresh))))) = mk_QSize 250 250)
  ∧ (maximumSize (ui_thumbnailButton (ui (widget
       (state_after (updateThumbnailSize Sample.narrow))))) = mk_QSize 0 0).
Proof.
  destruct (updateThumbnailSize_square Sample.fresh) as (_ & _ & Hwide & _).
  destruct (updateThumbnailSize_square Sample.narrow) as (_ & _ & _ & Hnarrow).
  split.
  - apply Hwide. vm_compute. discriminate.
  - apply Hnarrow. reflexivity.
Defined.

(** ** The icon path *)

(** C8. After [setIconPath(p)] the getter returns [p]; the getter changes
    nothing; the path is the empty string when [__init__] is done; and no
    other method changes it except by way of the capture callback: after
    any call the icon path is the argument of [setIconPath] or of the
    callback if that is what was called, else the path last handed to the
    capture callback during the call, else what it was.  Nor does it
    change when the user types or the host moves on. *)
Theorem iconPath_set_once_read_until_replaced (s : State) :
  (∀ p, get iconPath (state_after (setIconPath p s)) = Some p)
  ∧ state_after (iconPath s) = s
  ∧ (∀ c, get iconPath (state_after (call c s)) =
          match sets_icon_path c with
          | Some p => Some p
          | None => Some (default (_iconPath (widget s))
                            (last (captured_paths (events (call c s)))))
          end)
  ∧ (∀ s', step s s' →
           get iconPath s' = get iconPath s ∨ ∃ c, s' = state_after (call c s))
  ∧ (∀ item ui0 h,
       get iconPath (state_after (__init__ item (new item ui0 h))) = Some []).
Proof.
  split_and!.
  - intros p. open_state s. by run.
  - done.
  - intros c. open_state s. destruct c; by run.
  - intros s' [c ? | ? ? ? ? | h ? ? ?]; [right; by exists c | by left | by left].
  - intros it0 ui0 h. destruct ui0 as [? ? ? ? ? ? ?], h. by run.
Qed.

Lemma iconPath_set_once_read_until_replaced_witness :
  get iconPath (state_after (call call_accept
    (Sample.filled None Sample.no_file Yes (Some (u "/tmp/thumbnail.jpg"))))) =
    Some (u "/tmp/thumbnail.jpg")
  ∧ get iconPath (state_after (call call_accept
      (Sample.filled None Sample.no_file Ignore (Some (u "/tmp/thumbnail.jpg"))))) =
      Some [].
Proof.
  split.
  - exact (proj1 (proj2 (proj2 (iconPath_set_once_read_until_replaced
      (Sample.filled None Sample.no_file Yes (Some (u "/tmp/thumbnail.jpg"))))))
      call_accept).
  - exact (proj1 (proj2 (proj2 (iconPath_set_once_read_until_replaced
      (Sample.filled None Sample.no_file Ignore (Some (u "/tmp/thumbnail.jpg"))))))
      call_accept).
Defined.

(** ** The script job *)

Lemma call_keeps_jobs_accounted (c : Call) (s : State) :
  jobs_accounted s → jobs_accounted (state_after (call c s)).
Proof.
  unfold jobs_accounted. open_state s. cbn. intros ->.
  destruct c; run; jobs.
Qed.

Lemma init_jobs_accounted (item0 : Item) (ui0 : Ui) (h0 : Host) :
  scriptJobs h0 = ∅ →
  jobs_accounted (state_after (__init__ item0 (new item0 ui0 h0))).
Proof.
  unfold jobs_accounted. destruct ui0, h0. cbn. intros ->. run; jobs.
Qed.

Lemma reachable_jobs_accounted (item0 : Item) (ui0 : Ui) (h0 : Host) (s : State) :
  reachable item0 ui0 h0 s → jobs_accounted s.
Proof.
  induction 1 as [H0 | s s' _ IH Hstep].
  - by apply init_jobs_accounted.
  - destruct Hstep as [c s | ? ? ? s | h s Hj Hn].
    + by apply call_keeps_jobs_accounted.
    + exact IH.
    + unfold jobs_accounted in *. cbn. by rewrite Hj.
Qed.

(** C7. In every state the widget can reach there is at most one live
    script job, the one its handle names.  [setScriptJobEnabled(True)]
    does nothing when the handle is set and registers one job when it is
    [None]; [setScriptJobEnabled(False)] kills the job the handle names
    and resets the handle to [None], leaving no live job; after [close]
    the handle is [None] and no job is live. *)
Theorem at_most_one_script_job (item0 : Item) (ui0 : Ui) (h0 : Host) (s : State) :
  reachable item0 ui0 h0 s →
  (size (scriptJobs (host s)) ≤ 1)%nat
  ∧ scriptJobs (host s) = jobs_of (_scriptJob (widget s))
  ∧ (∀ j, _scriptJob (widget s) = Some j →
          setScriptJobEnabled true s = (Return tt, s, []))
  ∧ (_scriptJob (widget s) = None →
       let s' := state_after (setScriptJobEnabled true s) in
       let j := next_scriptJob (host s) in
       events (setScriptJobEnabled true s) = [EvScriptJob j (u "SelectionChanged")]
       ∧ _scriptJob (widget s') = Some j ∧ scriptJobs (host s') = {[ j ]})
  ∧ (let s' := state_after (setScriptJobEnabled false s) in
     events (setScriptJobEnabled false s) =
       match _scriptJob (widget s) with Some j => [EvKill j] | None => [] end
     ∧ _scriptJob (widget s') = None ∧ scriptJobs (host s') = ∅)
  ∧ (let s' := state_after (close s) in
     _scriptJob (widget s') = None ∧ scriptJobs (host s') = ∅).
Proof.
  intros Hr. apply reachable_jobs_accounted in Hr. unfold jobs_accounted in Hr.
  split_and!.
  - rewrite Hr. destruct (_scriptJob (widget s)); cbn.
    + by rewrite size_singleton.
    + rewrite size_empty. lia.
  - exact Hr.
  - intros j Hj. open_state s. cbn in *. subst. by run.
  - intros Hj. open_state s. cbn in *. subst. run. split_and!; try done. jobs.
  - open_state s. cbn in *. subst. run; split_and!; try done; jobs.
  - open_state s. cbn in *. subst. run; split_and!; try done; jobs.
Qed.

Lemma at_most_one_script_job_witness :
  reachable (Sample.item_with None) (Sample.form [] [] [])
            (Sample.session (Some [(u "pCube1")]) Sample.no_file Yes None 400)
            Sample.fresh
  ∧ (size (scriptJobs (host Sample.fresh)) ≤ 1)%nat
  ∧ scriptJobs (host Sample.fresh) = {[ 0%nat ]}.
Proof.
  assert (reachable (Sample.item_with None) (Sample.form [] [] [])
            (Sample.session (Some [(u "pCube1")]) Sample.no_file Yes None 400)
            Sample.fresh) as Hr by (apply reach_init; reflexivity).
  split; [exact Hr |].
  pose proof (at_most_one_script_job _ _ _ _ Hr) as (H1 & H2 & _).
  split; [exact H1 | exact H2].
Defined.

(** * Further properties of the methods *)

(** ** The selection label *)


(** ** The options of the item *)

(** X2. [setItem] with an item that has options, on a form with an
    options frame: the new options widget, built from the item's
    [saveOptions()] and [saveValidator], is added after the widgets
    already in the frame, none of which is removed, and it becomes the
    widget's options widget; the frame is not made visible. *)
Theorem setItem_with_options_adds_widget (it0 : Item) (s : State) (f : OptionsFrame) :
  options it0 ≠ [] →
  ui_optionsFrame (ui (widget s)) = Some f →
  let s' := state_after (setItem it0 s) in
  let ow := mk_OptionsWidget (saveOptions it0) (saveValidator it0) in
  result (setItem it0 s) = Return tt
  ∧ _item (widget s') = it0
  ∧ _optionsWidget (widget s') = Some ow
  ∧ ui_optionsFrame (ui (widget s')) =
      Some (mk_OptionsFrame (of_visible f) (of_widgets f ++ [ow])).
Proof.
  intros Ho Hf s' ow. subst s' ow. open_state s. cbn in Hf. subst.
  destruct it0 as [[| o os] ? ? ? ?]; [done |]. by run.
Qed.

Lemma setItem_with_options_adds_widget_witness :
  let s := state_after (setItem (Sample.item_with None) Sample.fresh) in
  _optionsWidget (widget s) = Some (mk_OptionsWidget [(u "namespaces")] 0%nat)
  ∧ ui_optionsFrame (ui (widget s)) =
      Some (mk_OptionsFrame true [mk_OptionsWidget [(u "namespaces")] 0%nat;
                                  mk_OptionsWidget [(u "namespaces")] 0%nat]).
Proof.
  intros s.
  pose proof (setItem_with_options_adds_widget (Sample.item_with None) Sample.fresh
                (mk_OptionsFrame true [mk_OptionsWidget [(u "namespaces")] 0%nat]))
    as H.
  destruct H as (_ & _ & H3 & H4); [discriminate | reflexivity |].
  split; [exact H3 | exact H4].
Defined.

(** X3. [setItem] with an item that has no options hides the options
    frame but does not let go of the options widget of the item before:
    the widget still holds it, and [selectionChanged] goes on validating
    it although the item is now the new one. *)
Theorem setItem_without_options_keeps_old_widget
    (it0 : Item) (s : State) (f : OptionsFrame) (held : OptionsWidget) :
  options it0 = [] →
  ui_optionsFrame (ui (widget s)) = Some f →
  _optionsWidget (widget s) = Some held →
  let s' := state_after (setItem it0 s) in
  _item (widget s') = it0
  ∧ _optionsWidget (widget s') = Some held
  ∧ ui_optionsFrame (ui (widget s')) = Some (mk_OptionsFrame false (of_widgets f))
  ∧ events (selectionChanged s') = [EvValidate].
Proof.
  intros Ho Hf Hw s'. subst s'. open_state s. cbn in Hf, Hw. subst.
  destruct it0 as [os ? ? ? ?]. cbn in Ho. subst os. by run.
Qed.

Lemma setItem_without_options_keeps_old_widget_witness :
  let bare := mk_Item [] [] 0%nat None (λ _ _ _ _, None) in
  let s := state_after (setItem bare Sample.fresh) in
  _optionsWidget (widget s) = Some (mk_OptionsWidget [(u "namespaces")] 0%nat)
  ∧ events (selectionChanged s) = [EvValidate].
Proof.
  intros bare s.
  pose proof (setItem_without_options_keeps_old_widget bare Sample.fresh
                (mk_OptionsFrame true [mk_OptionsWidget [(u "namespaces")] 0%nat])
                (mk_OptionsWidget [(u "namespaces")] 0%nat) eq_refl eq_refl eq_refl)
    as (_ & H2 & _ & H4).
  split; [exact H2 | exact H4].
Defined.

Lemma call_keeps_frame_hidden (c : Call) (s : State) (f : OptionsFrame) :
  ui_optionsFrame (ui (widget s)) = Some f → of_visible f = false →
  ∃ f', ui_optionsFrame (ui (widget (state_after (call c s)))) = Some f'
        ∧ of_visible f' = false.
Proof.
  intros Hf Hv. open_state s. cbn in Hf. subst. destruct f as [v ws].
  cbn in Hv. subst. destruct c; run; eauto.
Qed.

(** X4. Once the options frame is hidden it stays hidden: whatever calls
    follow, none makes it visible again, not even [setItem] with an item
    that has options. *)
Theorem options_frame_never_shown_again (cs : list Call) (s : State) (f : OptionsFrame) :
  ui_optionsFrame (ui (widget s)) = Some f → of_visible f = false →
  ∃ f', ui_optionsFrame (ui (widget (dispatch cs s).1)) = Some f'
        ∧ of_visible f' = false.
Proof.
  revert s f. induction cs as [| c cs IH]; intros s f Hf Hv; [by exists f |].
  destruct (call_keeps_frame_hidden c s f Hf Hv) as (f1 & Hf1 & Hv1).
  exact (IH _ f1 Hf1 Hv1).
Qed.

Lemma options_frame_never_shown_again_witness :
  let bare := mk_Item [] [] 0%nat None (λ _ _ _ _, None) in
  let s := (dispatch [call_setItem (Sample.item_with None); call_selectionChanged]
                     (state_after (setItem bare Sample.fresh))).1 in
  ∃ f', ui_optionsFrame (ui (widget s)) = Some f' ∧ of_visible f' = false.
Proof.
  intros bare s.
  exact (options_frame_never_shown_again
           [call_setItem (Sample.item_with None); call_selectionChanged]
           (state_after (setItem bare Sample.fresh))
           (mk_OptionsFrame false [mk_OptionsWidget [(u "namespaces")] 0%nat])
           eq_refl eq_refl).
Defined.

(** ** The text fields *)

(** X5. No method writes the name or the comment field, and the folder
    field is written by [setFolderPath] and [browseFolder] only:
    [setFolderPath(p)] makes it [p]; [browseFolder] makes it the
    directory the user chose, and leaves it alone when the dialog comes
    back empty, so browsing never empties a folder path that was set. *)
Theorem text_fields_written_only_by_folder_setters (c : Call) (s : State) :
  let s' := state_after (call c s) in
  ui_name (ui (widget s')) = ui_name (ui (widget s))
  ∧ ui_comment (ui (widget s')) = ui_comment (ui (widget s))
  ∧ ui_folderEdit (ui (widget s')) =
      match c with
      | call_setFolderPath p => p
      | call_browseFolder =>
          if bool_str (existing_directory (host s))
          then existing_directory (host s)
          else ui_folderEdit (ui (widget s))
      | _ => ui_folderEdit (ui (widget s))
      end
  ∧ (c = call_browseFolder → ui_folderEdit (ui (widget s)) ≠ [] →
     ui_folderEdit (ui (widget s')) ≠ []).
Proof.
  intros s'. subst s'. open_state s. split_and!.
  - destruct c; by run.
  - destruct c; by run.
  - destruct c; by run.
  - intros -> Hne. by run.
Qed.

Lemma text_fields_written_only_by_folder_setters_witness :
  ui_folderEdit (ui (widget (state_after (call call_browseFolder
    (Sample.filled None Sample.no_file Yes None))))) ≠ [].
Proof.
  apply (proj2 (proj2 (proj2 (text_fields_written_only_by_folder_setters
                  call_browseFolder (Sample.filled None Sample.no_file Yes None))))).
  - reflexivity.
  - discriminate.
Defined.

(** ** The thumbnail button *)

(** X6. After [setIconPath(p)] the thumbnail button shows the pixmap at
    [p] and has no text, and its tool tip and menu are untouched.  Its
    sizes are those of [updateThumbnailSize], not the 200 by 200 that
    [setIcon] alone leaves: at a width [w] of at least 10 icon size and
    maximum size are the square of side [min (w - 10) 250]; below 10 the
    maximum size is 0 by 0 and the icon size the style's default. *)
Theorem setIconPath_shows_icon (p : unicode) (s : State) :
  let w := width (host s) in
  let side := Z.min (w - 10) 250 in
  let b := ui_thumbnailButton (ui (widget s)) in
  let s' := state_after (setIconPath p s) in
  let b' := ui_thumbnailButton (ui (widget s')) in
  let s200 := state_after (setIcon (Some p) s) in
  let b200 := ui_thumbnailButton (ui (widget s200)) in
  icon b' = Some p ∧ text b' = []
  ∧ toolTip b' = toolTip b ∧ menu b' = menu b
  ∧ (10 ≤ w → thumbnailButton_iconSize s' = mk_QSize side side
              ∧ maximumSize b' = mk_QSize side side)
  ∧ (w < 10 → thumbnailButton_iconSize s' =
                mk_QSize (PM_ButtonIconSize (host s)) (PM_ButtonIconSize (host s))
              ∧ maximumSize b' = mk_QSize 0 0)
  ∧ icon b200 = Some p ∧ thumbnailButton_iconSize s200 = mk_QSize 200 200
  ∧ maximumSize b200 = maximumSize b.
Proof.
  intros w side b s' b' s200 b200. subst w side b s' b' s200 b200. open_state s.
  unfold thumbnailButton_iconSize. unfold_methods. cbn.
  split_and!; try done.
  - intros Hw. destruct (Z.ltb_spec 250 (wd - 10)).
    + rewrite Z.min_r by lia. by rewrite accepted_square by lia.
    + rewrite Z.min_l by lia. rewrite accepted_square, reported_valid by lia. done.
  - intros Hw. destruct (Z.ltb_spec 250 (wd - 10)); [lia |].
    rewrite accepted_negative, reported_invalid by lia. done.
Qed.

Lemma setIconPath_shows_icon_witness :
  thumbnailButton_iconSize (state_after (setIconPath (u "/tmp/thumbnail.jpg")
                                                   Sample.fresh)) =
    mk_QSize 250 250
  ∧ thumbnailButton_iconSize (state_after (setIconPath (u "/tmp/thumbnail.jpg")
                                                     Sample.narrow)) =
      mk_QSize 16 16.
Proof.
  destruct (setIconPath_shows_icon (u "/tmp/thumbnail.jpg") Sample.fresh)
    as (_ & _ & _ & _ & Hwide & _).
  destruct (setIconPath_shows_icon (u "/tmp/thumbnail.jpg") Sample.narrow)
    as (_ & _ & _ & _ & _ & Hnarrow & _).
  split.
  - apply Hwide. vm_compute. discriminate.
  - apply Hnarrow. reflexivity.
Defined.

(** ** Calling twice *)

(** X7. Every call but a [setItem] that adds an options widget leaves the
    widget, when repeated at once, in the state the first call left it
    in: a second [close], [setScriptJobEnabled], [setIconPath],
    [browseFolder], [accept] or [save] changes nothing more. *)
Theorem repeated_call_changes_nothing (c : Call) (s : State) :
  (∀ it0, c = call_setItem it0 →
          options it0 = [] ∨ ui_optionsFrame (ui (widget s)) = None) →
  state_after (call c (state_after (call c s))) = state_after (call c s).
Proof.
  intros H. open_state s. destruct c.
  all: try (by run).
  destruct (H _ eq_refl) as [Ho | Hf].
  - destruct item0 as [os ? ? ? ?]. cbn in Ho. subst os. by run.
  - cbn in Hf. subst ofr. by run.
Qed.

Lemma repeated_call_changes_nothing_witness :
  state_after (call call_accept (state_after (call call_accept
    (Sample.filled None Sample.no_file Yes (Some (u "/tmp/thumbnail.jpg")))))) =
  state_after (call call_accept
    (Sample.filled None Sample.no_file Yes (Some (u "/tmp/thumbnail.jpg")))).
Proof.
  apply (repeated_call_changes_nothing call_accept).
  intros it0 E. discriminate E.
Defined.

(** ** What [accept] refuses and what it saves *)

Lemma last_char_app (a b : unicode) :
  b ≠ [] → last_char (a ++ b) = last_char b.
Proof.
  intros Hb. induction a as [| c a IH]; [done |].
  rewrite app_String. cbn. rewrite IH.
  destruct (a ++ b) eqn:E; [| done].
  destruct a, b; done.
Qed.

Lemma last_char_None (t : unicode) : last_char t = None → t = [].
Proof.
  induction t as [| c t IH]; [done |]. cbn. destruct t; [done |].
  intros H. by apply IH in H.
Qed.





Lemma accept_save_event (s : State) o p i m :
  In (EvItemSave o p i m) (events (accept s)) →
  ui_folderEdit (ui (widget s)) ≠ []
  ∧ strip (ui_name (ui (widget s))) ≠ []
  ∧ o ≠ [] ∧ o = or_empty (ls_selection (host s))
  ∧ p = ui_folderEdit (ui (widget s)) ++ (u "/") ++ strip (ui_name (ui (widget s)))
  ∧ m = {[ (u "description") := strip (ui_comment (ui (widget s))) ]}.
Proof.
  open_state s. intros H. run; split_cases; try congruence.
  all: by split_and!.
Qed.

(** X9. Whatever [accept] hands to the item's [save] is well formed: the
    object list is not empty, and the path is the non-empty folder path,
    a slash, and the name field stripped, which is not empty and neither
    starts nor ends with whitespace, so that the path never ends in
    whitespace. *)
Theorem accept_saves_well_formed_path (s : State) o p i m :
  In (EvItemSave o p i m) (events (accept s)) →
  let stem := strip (ui_name (ui (widget s))) in
  o ≠ []
  ∧ p = ui_folderEdit (ui (widget s)) ++ (u "/") ++ stem
  ∧ ui_folderEdit (ui (widget s)) ≠ []
  ∧ match stem with (c :: _) => isspace c = false | [] => False end
  ∧ match last_char stem with Some c => isspace c = false | None => False end
  ∧ match last_char p with Some c => isspace c = false | None => False end.
Proof.
  intros (Hf & Hn & Ho & _ & Hp & _)%accept_save_event stem. subst stem.
  destruct (strip_spec (ui_name (ui (widget s)))) as (_ & _ & _ & _ & _ & Hhd & Hlast).
  assert (match last_char (strip (ui_name (ui (widget s)))) with
          | Some c => isspace c = false
          | None => False
          end) as Hend.
  { destruct (last_char (strip _)) eqn:E; [done |]. by apply last_char_None in E. }
  split_and!; try done.
  - by destruct (strip _).
  - rewrite Hp, last_char_app by done. by rewrite last_char_app by done.
Qed.


Lemma accept_saves_well_formed_path_witness :
  let s := Sample.with_form Sample.padded_pose [] (u "/lib")
             (Sample.filled None Sample.no_file Ignore None) in
  In (EvItemSave [u "pCube1"] (u "/lib/pose") [] {[ u "description" := [] ]})
     (events (accept s))
  ∧ match last_char (u "/lib/pose") with
    | Some c => isspace c = false
    | None => False
    end.
Proof.
  intros s.
  assert (In (EvItemSave [u "pCube1"] (u "/lib/pose") [] {[ u "description" := [] ]})
             (events (accept s))) as Hin by (right; left; reflexivity).
  split; [exact Hin |].
  exact (proj2 (proj2 (proj2 (proj2 (proj2
           (accept_saves_well_formed_path s _ _ _ _ Hin)))))).
Defined.

(** ** The log of script jobs *)

Lemma held_after_app (handle : option nat) (l1 l2 : list Event) :
  held_after handle (l1 ++ l2) =
    match held_after handle l1 with
    | Some handle' => held_after handle' l2
    | None => None
    end.
Proof.
  revert handle. induction l1 as [| e l1 IH]; intros handle; [done |].
  destruct e; cbn; try apply IH.
  - destruct handle; [done | apply IH].
  - destruct handle as [j' |]; [| done]. case_decide; [apply IH | done].
Qed.

Lemma call_job_log (c : Call) (s : State) :
  held_after (_scriptJob (widget s)) (events (call c s)) =
    Some (_scriptJob (widget (state_after (call c s)))).
Proof.
  open_state s. destruct c; by run.
Qed.

(** X10. Over any sequence of calls the registrations and kills in the
    log are in order: a job is registered only when none is held, a kill
    is always of the job held, so no job is killed twice and none that the
    widget does not hold; and the handle at the end is the one the log
    leaves. *)
Theorem dispatch_job_log (cs : list Call) (s : State) :
  held_after (_scriptJob (widget s)) (dispatch cs s).2 =
    Some (_scriptJob (widget (dispatch cs s).1)).
Proof.
  revert s. induction cs as [| c cs IH]; intros s; [done |].
  cbn [dispatch fst snd]. by rewrite held_after_app, call_job_log, IH.
Qed.

(** X11. Only [setScriptJobEnabled], [close], [save] and [accept] touch
    the script job: any other call registers nothing, kills nothing, and
    leaves the handle and the host's jobs as they are. *)
Theorem script_job_untouched_elsewhere (c : Call) (s : State) :
  reaches_setScriptJobEnabled c = false →
  let s' := state_after (call c s) in
  job_events (events (call c s)) = []
  ∧ _scriptJob (widget s') = _scriptJob (widget s)
  ∧ scriptJobs (host s') = scriptJobs (host s)
  ∧ next_scriptJob (host s') = next_scriptJob (host s).
Proof.
  intros Hc s'. subst s'. open_state s. destruct c; try done; by run.
Qed.

Lemma script_job_untouched_elsewhere_witness :
  job_events (events (call call_selectionChanged Sample.fresh)) = []
  ∧ _scriptJob (widget (state_after (call call_selectionChanged Sample.fresh))) =
      Some 0%nat.
Proof.
  destruct (script_job_untouched_elsewhere call_selectionChanged Sample.fresh eq_refl)
    as (H1 & H2 & _).
  split; [exact H1 | exact H2].
Defined.

(** ** What holds in every state *)

Lemma call_keeps_options_laid_out (c : Call) (s : State) :
  options_laid_out s → options_laid_out (state_after (call c s)).
Proof.
  unfold options_laid_out. open_state s. cbn. intros H.
  destruct ow as [held |].
  - destruct H as (f & -> & Hin). destruct c; run; eauto.
    all: eexists; (split; [done |]); apply in_or_app; right; by left.
  - destruct c; run; eauto.
    all: eexists; (split; [done |]); apply in_or_app; right; by left.
Qed.

(** X12. In every state the widget can reach, the options widget it
    holds, the one [selectionChanged] validates, is laid out in the
    options frame of the form. *)
Theorem reachable_options_laid_out (item0 : Item) (ui0 : Ui) (h0 : Host) (s : State) :
  reachable item0 ui0 h0 s → options_laid_out s.
Proof.
  induction 1 as [H0 | s s' _ IH Hstep].
  - unfold options_laid_out. destruct ui0, h0. run; eauto.
    all: eexists; (split; [done |]); apply in_or_app; right; by left.
  - destruct Hstep as [c s | ? ? ? s | h s Hj Hn].
    + by apply call_keeps_options_laid_out.
    + exact IH.
    + exact IH.
Qed.

Lemma reachable_options_laid_out_witness :
  options_laid_out Sample.fresh.
Proof.
  apply (reachable_options_laid_out (Sample.item_with None) (Sample.form [] [] [])
           (Sample.session (Some [(u "pCube1")]) Sample.no_file Yes None 400)).
  apply reach_init. reflexivity.
Defined.

Ltac capped :=
  unfold accepted_maximumSize, QWIDGETSIZE_MAX; cbn;
  eexists; split_and!; [| reflexivity | reflexivity];
  repeat match goal with
         | H : (_ <? _) = false |- _ => apply Z.ltb_ge in H
         end;
  first [ done | lia ].

Lemma call_keeps_thumbnail_capped (c : Call) (s : State) :
  thumbnail_capped s → thumbnail_capped (state_after (call c s)).
Proof.
  unfold thumbnail_capped. open_state s. destruct tb as [? ? ? mx ? ?]. cbn.
  intros (side & Hs & -> & ->). destruct c; run; capped.
Qed.

(** X13. In every state the widget can reach, the maximum sizes of the
    thumbnail button and of its frame are one and the same square, of
    side 250 at most. *)
Theorem reachable_thumbnail_capped (item0 : Item) (ui0 : Ui) (h0 : Host) (s : State) :
  reachable item0 ui0 h0 s → thumbnail_capped s.
Proof.
  induction 1 as [H0 | s s' _ IH Hstep].
  - unfold thumbnail_capped. destruct ui0, h0. run; capped.
  - destruct Hstep as [c s | ? ? ? s | h s Hj Hn].
    + by apply call_keeps_thumbnail_capped.
    + exact IH.
    + exact IH.
Qed.

Lemma reachable_thumbnail_capped_witness :
  thumbnail_capped Sample.fresh.
Proof.
  apply (reachable_thumbnail_capped (Sample.item_with None) (Sample.form [] [] [])
           (Sample.session (Some [(u "pCube1")]) Sample.no_file Yes None 400)).
  apply reach_init. reflexivity.
Defined.

(** ** Construction *)

(** X14. [__init__] never raises and asks nothing of the user: all it
    does outside the widget is log the capture-menu message and register
    one script job for "SelectionChanged", which the handle then names.
    It validates no options, since [selectionChanged] runs before the
    item is set; the item is the one given, the icon path is empty, the
    text fields are as the design file has them, the thumbnail button has
    its tool tip and a capture menu for the temporary thumbnail path. *)
Theorem init_registers_one_job (item0 : Item) (ui0 : Ui) (h : Host) :
  let r := __init__ item0 (new item0 ui0 h) in
  let s := state_after r in
  let b := ui_thumbnailButton (ui (widget s)) in
  result r = Return tt
  ∧ events r = [EvLog (u "Setting capture menu to True");
                EvScriptJob (next_scriptJob h) (u "SelectionChanged")]
  ∧ _scriptJob (widget s) = Some (next_scriptJob h)
  ∧ _item (widget s) = item0
  ∧ _iconPath (widget s) = []
  ∧ ui_name (ui (widget s)) = ui_name ui0
  ∧ ui_comment (ui (widget s)) = ui_comment ui0
  ∧ ui_folderEdit (ui (widget s)) = ui_folderEdit ui0
  ∧ toolTip b = tooltip_text
  ∧ menu b = Some (ThumbnailCaptureMenu (tempThumbnailPath h) true (parent h)).
Proof.
  intros r s b. subst r s b. destruct ui0, h. run; by split_and!.
Qed.

(** ** Saving without [accept] *)

(** X15. The widget's [save] validates nothing and reports nothing: it
    hands the objects, path, icon path and metadata it is given to the
    item's [save] as they are, empty or not, exactly once, and shows no
    dialog.  If the item's [save] raises, the exception leaves [save]
    with the widget as it was; if it returns, the script job is gone. *)
Theorem save_forwards_unvalidated (s : State) o p i m :
  let r := save o p i m s in
  save_calls (events r) = [EvItemSave o p i m]
  ∧ criticals (events r) = [] ∧ questions (events r) = []
  ∧ match item_save (_item (widget s)) o p i m with
    | None => result r = Return tt
              ∧ _scriptJob (widget (state_after r)) = None
              ∧ closes (events r) = [EvQWidgetClose]
    | Some e => result r = Raise e ∧ state_after r = s
    end.
Proof.
  intros r. subst r. open_state s. run; by split_and!.
Qed.

(** ** Capturing a thumbnail *)

(** X16. [thumbnailCapture] never raises; the capture is always taken to
    the temporary thumbnail path, whatever the icon path is.  When the
    capture calls back, the icon path and the icon of the button become
    the path the callback was given and the button text is cleared;
    when it does not, the widget is as it was. *)
Theorem thumbnailCapture_to_temp_path (s : State) :
  let r := thumbnailCapture s in
  let b' := ui_thumbnailButton (ui (widget (state_after r))) in
  result r = Return tt
  ∧ match capture_result (host s) with
    | Some p =>
        events r = [EvThumbnailCapture (tempThumbnailPath (host s)); EvCaptured p]
        ∧ _iconPath (widget (state_after r)) = p
        ∧ icon b' = Some p ∧ text b' = []
    | None =>
        events r = [EvThumbnailCapture (tempThumbnailPath (host s))]
        ∧ state_after r = s
    end.
Proof.
  intros r b'. subst r b'. open_state s. run; by split_and!.
Qed.

(** ** How [accept] can end *)

(** X17. [accept] returns normally in two cases only: the user cancelled
    the thumbnail question, and then nothing but the question happened;
    or the item's [save] was called once and returned, and then the
    widget was closed once and holds no script job. *)
Theorem accept_returns_after_cancel_or_save (s : State) :
  result (accept s) = Return tt →
  (question_answer (host s) = Cancel
   ∧ events (accept s) = [capture_question s] ∧ state_after (accept s) = s)
  ∨ (∃ o p i m,
       save_calls (events (accept s)) = [EvItemSave o p i m]
       ∧ item_save (_item (widget s)) o p i m = None
       ∧ closes (events (accept s)) = [EvQWidgetClose]
       ∧ criticals (events (accept s)) = []
       ∧ _scriptJob (widget (state_after (accept s))) = None).
Proof.
  open_state s. intros H. run; try congruence.
  all: first [ left; split_and!; [by buttons | done | done]
             | right; do 4 eexists; by split_and! ].
Qed.

Lemma accept_returns_after_cancel_or_save_witness :
  closes (events (accept (Sample.filled None Sample.any_file Yes None))) =
    [EvQWidgetClose].
Proof.
  destruct (accept_returns_after_cancel_or_save
              (Sample.filled None Sample.any_file Yes None) eq_refl)
    as [(E & _) | (o & p & i & m & _ & _ & H & _)].
  - discriminate E.
  - exact H.
Defined.
